(** * Verification of the secfetch middleware (Go package [secfetch])

    Shallow embedding of [secfetch.go]: the decision predicate [allowed],
    the enforcing wrapper [ProtectHandler] and the log-only wrapper
    [ProtectHandlerLogOnly], over a small model of the parts of Go's
    [net/http] they touch ([http.Header.Get], [ResponseWriter.WriteHeader],
    [fmt.Fprintln] on a response writer). *)

From Stdlib Require Import String Ascii Bool.
From stdpp Require Import base gmap strings list.

Open Scope string_scope.

(* ------------------------------------------------------------------ *)
(** ** net/textproto: header key canonicalisation *)

Module TextProto.

(** [validHeaderFieldByte]: the RFC 7230 token characters. *)
Definition tokenPunct : string := "!#$%&'*+-.^_`|~".

Definition is_alnum (c : ascii) : bool :=
  let n := nat_of_ascii c in
  (Nat.leb 48 n && Nat.leb n 57) || (Nat.leb 65 n && Nat.leb n 90)
  || (Nat.leb 97 n && Nat.leb n 122).

Fixpoint string_has (c : ascii) (s : string) : bool :=
  match s with
  | EmptyString => false
  | String d s' => Ascii.eqb c d || string_has c s'
  end.

Definition validHeaderFieldByte (c : ascii) : bool :=
  is_alnum c || string_has c tokenPunct.

Fixpoint all_valid (s : string) : bool :=
  match s with
  | EmptyString => true
  | String c s' => validHeaderFieldByte c && all_valid s'
  end.

Definition is_lower (c : ascii) : bool :=
  let n := nat_of_ascii c in Nat.leb 97 n && Nat.leb n 122.
Definition is_upper (c : ascii) : bool :=
  let n := nat_of_ascii c in Nat.leb 65 n && Nat.leb n 90.

(** The loop of [canonicalMIMEHeaderKey]: [c -= toLower] when [upper],
    [c += toLower] otherwise; [upper = c == '-'] afterwards. *)
Fixpoint canon_loop (upper : bool) (s : string) : string :=
  match s with
  | EmptyString => EmptyString
  | String c s' =>
      let c' := if upper && is_lower c then ascii_of_nat (nat_of_ascii c - 32)
                else if negb upper && is_upper c then ascii_of_nat (nat_of_ascii c + 32)
                else c in
      String c' (canon_loop (Ascii.eqb c' "-"%char) s')
  end.

(** [CanonicalMIMEHeaderKey]: a key holding a byte that is not a token
    character is returned unchanged; otherwise it is canonicalised. *)
Definition CanonicalMIMEHeaderKey (s : string) : string :=
  if all_valid s then canon_loop true s else s.

End TextProto.

(* ------------------------------------------------------------------ *)
(** ** net/http: requests and headers *)

(** [http.Header] is [map[string][]string]. *)
Abbreviation Header := (gmap string (list string)).

(** [Header.Get]: the first value under the canonical key, or [""]. *)
Definition Header_Get (h : Header) (key : string) : string :=
  match h !! TextProto.CanonicalMIMEHeaderKey key with
  | Some (v :: _) => v
  | _ => ""
  end.

(** [Header.Set]: replace the values under the canonical key. *)
Definition Header_Set (h : Header) (key value : string) : Header :=
  <[TextProto.CanonicalMIMEHeaderKey key := [value]]> h.

(** The fields of [*http.Request] that a handler can observe here. *)
Record Request := mkRequest {
  Method : string;
  ReqHeader : Header;
  URLPath : string;
  Body : string;
  RemoteAddr : string
}.

(* ------------------------------------------------------------------ *)
(** ** secfetch.allowed *)

Definition allowed (r : Request) : bool :=
  let site := Header_Get (ReqHeader r) "sec-fetch-site" in
  let mode := Header_Get (ReqHeader r) "sec-fetch-mode" in
  if String.eqb site "" ||     (* Browser did not send Sec-Fetch-Site, bail out. *)
     String.eqb site "none" || (* The action was started by the user agent. *)
     String.eqb site "same-site" ||
     String.eqb site "same-origin"
  then true
  else
    (* Here site is "cross-site", so let's just allow "GET" navigations *)
    if String.eqb mode "navigate" && String.eqb (Method r) "GET"
    then true
    (* Cross-site potentially dangerous request, reject. *)
    else false.

(** A request as the tests build it: [httptest.NewRequest] followed by
    [r.Header.Set("sec-fetch-site", site)] and
    [r.Header.Set("sec-fetch-mode", mode)]. *)
Definition mkTestRequest (site mode method : string) : Request :=
  mkRequest method
    (Header_Set (Header_Set ∅ "sec-fetch-site" site) "sec-fetch-mode" mode)
    "/" "" "192.0.2.1:1234".

(* ------------------------------------------------------------------ *)
(** ** net/http: the response writer *)

(** The state behind an [http.ResponseWriter]: the status written so far
    ([None] before the first [WriteHeader] or [Write]), the response
    headers and the body bytes. *)
Record ResponseWriter := mkResponseWriter {
  status : option Z;
  RespHeader : Header;
  RespBody : string
}.

(** A writer as the server hands it to a handler. *)
Definition freshWriter : ResponseWriter := mkResponseWriter None ∅ "".

(** [WriteHeader]: a superfluous call after the header was written is
    ignored. *)
Definition WriteHeader (w : ResponseWriter) (code : Z) : ResponseWriter :=
  match status w with
  | Some _ => w
  | None => mkResponseWriter (Some code) (RespHeader w) (RespBody w)
  end.

(** [Write]: writes an implicit [WriteHeader(http.StatusOK)] first. *)
Definition Write (w : ResponseWriter) (b : string) : ResponseWriter :=
  let w' := WriteHeader w 200 in
  mkResponseWriter (status w') (RespHeader w') (String.append (RespBody w') b).

Definition newline : string := String "010"%char EmptyString.

(** [fmt.Fprintln(w, s)] for one string operand. *)
Definition Fprintln (w : ResponseWriter) (s : string) : ResponseWriter :=
  Write w (String.append s newline).

Definition StatusForbidden : Z := 403.

(** The deny branch of [ProtectHandler]. *)
Definition deny (w : ResponseWriter) : ResponseWriter :=
  Fprintln (WriteHeader w StatusForbidden) "Invalid resource access".

(* ------------------------------------------------------------------ *)
(** ** secfetch.ProtectHandler and secfetch.ProtectHandlerLogOnly *)

Section Handlers.

(** [S] is whatever state outside the response the handlers and the
    request logger may share (a log buffer, counters, ...). *)
Variable S : Type.

(** [http.Handler]: [ServeHTTP(w, r)] as a transformer of the writer and
    of the shared state. *)
Definition Handler : Type := Request -> ResponseWriter * S -> ResponseWriter * S.

(** [RequestLogger]: [LogRequest(r)] acts on the shared state only. *)
Definition RequestLogger : Type := Request -> S -> S.

Definition ProtectHandler (h : Handler) : Handler :=
  fun r ws =>
    let (w, s) := ws in
    if negb (allowed r) then (deny w, s)
    else h r (w, s).

Definition ProtectHandlerLogOnly (h : Handler) (rl : RequestLogger) : Handler :=
  fun r ws =>
    let (w, s) := ws in
    let s' := if negb (allowed r) then rl r s else s in
    h r (w, s').

End Handlers.

(* ------------------------------------------------------------------ *)
(** ** Vocabulary for the statements *)

(** The two header values [allowed] reads. *)
Definition site_of (r : Request) : string := Header_Get (ReqHeader r) "sec-fetch-site".
Definition mode_of (r : Request) : string := Header_Get (ReqHeader r) "sec-fetch-mode".

(** The site values of the first rule of [allowed]. *)
Definition permissive_sites : list string := [""; "none"; "same-site"; "same-origin"].

(** ASCII lower-casing, to speak of values that differ only in case. *)
Definition lower_ascii (c : ascii) : ascii :=
  if TextProto.is_upper c then ascii_of_nat (nat_of_ascii c + 32) else c.

Fixpoint to_lower (s : string) : string :=
  match s with
  | EmptyString => EmptyString
  | String c s' => String (lower_ascii c) (to_lower s')
  end.

(** The test's [testRequestLogger]: [LogRequest] appends the request. *)
Definition testRequestLogger : RequestLogger (list Request) :=
  fun r rs => app rs [r].

(** The test's wrapped handler: [fmt.Fprintf(w, "User Data")]. *)
Definition userDataHandler {S : Type} : Handler S :=
  fun _ ws => (Write (fst ws) "User Data", snd ws).

(** One step of [TextProto.canon_loop], the byte it writes. *)
Definition canon_byte (upper : bool) (c : ascii) : ascii :=
  if upper && TextProto.is_lower c then ascii_of_nat (nat_of_ascii c - 32)
  else if negb upper && TextProto.is_upper c then ascii_of_nat (nat_of_ascii c + 32)
  else c.

(* ------------------------------------------------------------------ *)
(** ** The test suite (secfetch_test.go) *)

(** A row of the table [checkTests]. *)
Record checkTest := mkCheckTest {
  ct_name : string; ct_site : string; ct_mode : string; ct_method : string;
  ct_want : bool
}.

Definition checkTests : list checkTest := [
  mkCheckTest "no headers" "" "" "POST" true;
  mkCheckTest "ua initiated" "none" "" "GET" true;
  mkCheckTest "cors bug missing mode" "cross-site" "" "OPTIONS" true;
  mkCheckTest "same site" "same-site" "websocket" "HEAD" true;
  mkCheckTest "same origin" "same-origin" "unrecognized" "POST" true;
  mkCheckTest "cross origin nested navigate" "cross-site" "nested-navigate" "GET" true;
  mkCheckTest "cross origin head navigate" "cross-site" "navigate" "HEAD" true;
  mkCheckTest "cross origin navigate" "cross-site" "navigate" "GET" true;
  mkCheckTest "cross origin form submission" "cross-site" "navigate" "POST" false;
  mkCheckTest "cross origin no cors" "cross-site" "no-cors" "GET" false;
  mkCheckTest "cross origin cors" "cross-site" "cors" "POST" false
].

(** The request a row builds: [httptest.NewRequest(tt.method, "/", body)]
    with body ["body"] for POST and none otherwise, then the two
    [Header.Set] calls. *)
Definition rowRequest (row : checkTest) : Request :=
  let r := mkTestRequest (ct_site row) (ct_mode row) (ct_method row) in
  mkRequest (Method r) (ReqHeader r) (URLPath r)
    (if String.eqb (ct_method row) "POST" then "body" else "") (RemoteAddr r).

(** [httptest.ResponseRecorder.Code]: 200 until a status is written. *)
Definition recorderCode (w : ResponseWriter) : Z :=
  match status w with Some c => c | None => 200%Z end.

(** [bytes.Contains(s, sub)]. *)
Fixpoint contains (s sub : string) : bool :=
  String.prefix sub s ||
  match s with EmptyString => false | String _ s' => contains s' sub end.

(** The checks [TestProtectHandler] makes on one row: no leak of the
    handler's data under a non-200 status, and [w.Code == 200] equal to
    [tt.want]. *)
Definition protectRowPasses (row : checkTest) : bool :=
  let w := fst (ProtectHandler unit userDataHandler (rowRequest row) (freshWriter, tt)) in
  negb (negb (Z.eqb (recorderCode w) 200) && contains (RespBody w) "User Data") &&
  Bool.eqb (Z.eqb (recorderCode w) 200) (ct_want row).

(** The checks [TestProtectHandlerLogOnly] makes on one row, the logger
    being reset before each row: status 200, the handler's data in the
    body, and [len(tl.rs) == 0] equal to [tt.want]. *)
Definition logOnlyRowPasses (row : checkTest) : bool :=
  let '(w, rs) := ProtectHandlerLogOnly (list Request) userDataHandler
                    testRequestLogger (rowRequest row) (freshWriter, []) in
  Z.eqb (recorderCode w) 200 && contains (RespBody w) "User Data" &&
  Bool.eqb (Nat.eqb (length rs) 0) (ct_want row).

(** The names of the rows a test rejects. *)
Definition failingRows (passes : checkTest -> bool) : list string :=
  map ct_name (filter (fun tt => negb (passes tt)) checkTests).

Example canon_site :
  TextProto.CanonicalMIMEHeaderKey "sec-fetch-site" = "Sec-Fetch-Site".
Proof. reflexivity. Qed.

Example allowed_cross_nav_get :
  allowed (mkTestRequest "cross-site" "navigate" "GET") = true.
Proof. reflexivity. Qed.

Example allowed_cross_nav_head :
  allowed (mkTestRequest "cross-site" "navigate" "HEAD") = false.
Proof. reflexivity. Qed.

Example lower_none : to_lower "SAME-ORIGIN" = "same-origin".
Proof. reflexivity. Qed.

(* ------------------------------------------------------------------ *)
(** ** Properties of [allowed] *)

Ltac eqb_cases :=
  repeat match goal with
  | |- context [String.eqb ?a ?b] => destruct (String.eqb_spec a b)
  end.

Lemma allowed_unfold (r : Request) :
  allowed r =
  (if String.eqb (site_of r) "" || String.eqb (site_of r) "none" ||
      String.eqb (site_of r) "same-site" || String.eqb (site_of r) "same-origin"
   then true
   else String.eqb (mode_of r) "navigate" && String.eqb (Method r) "GET").
Proof.
  unfold allowed, site_of, mode_of; cbv zeta.
  destruct (_ || _); [reflexivity|].
  destruct (_ && _); reflexivity.
Qed.

Lemma allowed_site_in (r : Request) :
  In (site_of r) permissive_sites -> allowed r = true.
Proof.
  rewrite allowed_unfold; simpl.
  intros [H|[H|[H|[H|[]]]]]; rewrite <- H; reflexivity.
Qed.

Lemma allowed_site_out (r : Request) :
  ~ In (site_of r) permissive_sites ->
  allowed r = String.eqb (mode_of r) "navigate" && String.eqb (Method r) "GET".
Proof.
  rewrite allowed_unfold; simpl; intros Hn.
  destruct (String.eqb_spec (site_of r) "") as [e|]; [rewrite e in Hn; tauto|].
  destruct (String.eqb_spec (site_of r) "none") as [e|]; [rewrite e in Hn; tauto|].
  destruct (String.eqb_spec (site_of r) "same-site") as [e|]; [rewrite e in Hn; tauto|].
  destruct (String.eqb_spec (site_of r) "same-origin") as [e|]; [rewrite e in Hn; tauto|].
  reflexivity.
Qed.

Lemma site_of_absent (r : Request) :
  ReqHeader r !! "Sec-Fetch-Site" = None \/ ReqHeader r !! "Sec-Fetch-Site" = Some [] ->
  site_of r = "".
Proof.
  unfold site_of, Header_Get.
  change (TextProto.CanonicalMIMEHeaderKey "sec-fetch-site") with "Sec-Fetch-Site".
  intros [H|H]; rewrite H; reflexivity.
Qed.

(* ------------------------------------------------------------------ *)
(** ** Properties of the response writer *)

Lemma append_nonempty_neq (s t : string) :
  t <> EmptyString -> String.append s t <> s.
Proof.
  intros Ht; induction s as [|c s IH]; simpl.
  - exact Ht.
  - intros H; inversion H; contradiction.
Qed.

Lemma deny_body (w : ResponseWriter) :
  RespBody (deny w) =
  String.append (RespBody w) (String.append "Invalid resource access" newline).
Proof. destruct w as [[z|] hd b]; reflexivity. Qed.

Lemma deny_changes_writer (w : ResponseWriter) : deny w <> w.
Proof.
  intros H; apply (append_nonempty_neq (RespBody w)
                     (String.append "Invalid resource access" newline)).
  - discriminate.
  - rewrite <- deny_body, H; reflexivity.
Qed.

(* ------------------------------------------------------------------ *)
(** ** The claims about [allowed] *)

(** C1: when the site value is none of [""], ["none"], ["same-site"],
    ["same-origin"], and it is not the case that the mode is ["navigate"]
    and the method ["GET"], [allowed] denies; in particular an
    unrecognized or missing mode leads to deny. *)
Theorem C1_cross_site_deny (r : Request)
  (Hsite : ~ In (site_of r) permissive_sites)
  (Hnav : ~ (mode_of r = "navigate" /\ Method r = "GET")) :
  allowed r = false.
Proof.
  rewrite (allowed_site_out r Hsite).
  destruct (String.eqb_spec (mode_of r) "navigate"),
           (String.eqb_spec (Method r) "GET"); tauto.
Qed.

Lemma C1_witness :
  let r := mkTestRequest "cross-site" "" "OPTIONS" in
  ~ In (site_of r) permissive_sites /\
  ~ (mode_of r = "navigate" /\ Method r = "GET") /\ allowed r = false.
Proof.
  intros r.
  assert (Hs : ~ In (site_of r) permissive_sites)
    by (vm_compute; intros [H|[H|[H|[H|[]]]]]; discriminate).
  assert (Hn : ~ (mode_of r = "navigate" /\ Method r = "GET"))
    by (vm_compute; intros [H _]; discriminate).
  split; [exact Hs | split; [exact Hn | exact (C1_cross_site_deny r Hs Hn)]].
Defined.

(** C2: when the site value is [""], ["none"], ["same-site"] or
    ["same-origin"], [allowed] allows, whatever the mode and the method. *)
Theorem C2_permissive_site_allow (r : Request)
  (Hsite : In (site_of r) permissive_sites) :
  allowed r = true.
Proof. exact (allowed_site_in r Hsite). Qed.

Lemma C2_witness :
  let r := mkTestRequest "same-site" "websocket" "HEAD" in
  In (site_of r) permissive_sites /\ allowed r = true.
Proof.
  intros r.
  assert (Hs : In (site_of r) permissive_sites) by (vm_compute; tauto).
  split; [exact Hs | exact (C2_permissive_site_allow r Hs)].
Defined.

(** C3: for any other site value, a ["navigate"] mode with the method
    exactly ["GET"] is allowed. *)
Theorem C3_cross_site_navigate_get_allow (r : Request)
  (Hsite : ~ In (site_of r) permissive_sites)
  (Hmode : mode_of r = "navigate") (Hmethod : Method r = "GET") :
  allowed r = true.
Proof. rewrite (allowed_site_out r Hsite), Hmode, Hmethod; reflexivity. Qed.

Lemma C3_witness :
  let r := mkTestRequest "cross-site" "navigate" "GET" in
  ~ In (site_of r) permissive_sites /\ mode_of r = "navigate" /\
  Method r = "GET" /\ allowed r = true.
Proof.
  intros r.
  assert (Hs : ~ In (site_of r) permissive_sites)
    by (vm_compute; intros [H|[H|[H|[H|[]]]]]; discriminate).
  split; [exact Hs|].
  split; [reflexivity|]. split; [reflexivity|].
  apply (C3_cross_site_navigate_get_allow r Hs); reflexivity.
Defined.

(** C6: a cross-site ["navigate"] request with method ["HEAD"] is denied:
    only the exact method ["GET"] gets the navigate exemption. *)
Theorem C6_cross_site_head_navigate_deny (r : Request)
  (Hsite : site_of r = "cross-site") (Hmode : mode_of r = "navigate")
  (Hmethod : Method r = "HEAD") :
  allowed r = false.
Proof. rewrite allowed_unfold, Hsite, Hmode, Hmethod; reflexivity. Qed.

Lemma C6_witness :
  let r := mkTestRequest "cross-site" "navigate" "HEAD" in
  site_of r = "cross-site" /\ mode_of r = "navigate" /\ Method r = "HEAD" /\
  allowed r = false.
Proof.
  intros r. split; [reflexivity|]. split; [reflexivity|]. split; [reflexivity|].
  apply (C6_cross_site_head_navigate_deny r); reflexivity.
Defined.

(** C7: [allowed] is a total function ([Request -> bool], no error
    result); an absent site header (no key, or no value under it) is read
    as the empty string, and the request is then allowed (fail-open). *)
Theorem C7_absent_site_fail_open (r : Request)
  (Habsent : ReqHeader r !! "Sec-Fetch-Site" = None \/
             ReqHeader r !! "Sec-Fetch-Site" = Some []) :
  site_of r = "" /\ allowed r = true.
Proof.
  pose proof (site_of_absent r Habsent) as Hs.
  split; [exact Hs|].
  apply allowed_site_in; rewrite Hs; left; reflexivity.
Qed.

Lemma C7_witness :
  let r := mkRequest "POST" ∅ "/" "body" "192.0.2.1:1234" in
  (ReqHeader r !! "Sec-Fetch-Site" = None \/
   ReqHeader r !! "Sec-Fetch-Site" = Some []) /\
  site_of r = "" /\ allowed r = true.
Proof.
  intros r.
  assert (H : ReqHeader r !! "Sec-Fetch-Site" = None \/
              ReqHeader r !! "Sec-Fetch-Site" = Some [])
    by (left; reflexivity).
  split; [exact H | exact (C7_absent_site_fail_open r H)].
Defined.

(** C8: two requests that agree on the site header, the mode header and
    the method get the same decision, whatever their other fields. *)
Theorem C8_decision_depends_on_triple (r1 r2 : Request)
  (Hsite : site_of r1 = site_of r2) (Hmode : mode_of r1 = mode_of r2)
  (Hmethod : Method r1 = Method r2) :
  allowed r1 = allowed r2.
Proof. rewrite !allowed_unfold, Hsite, Hmode, Hmethod; reflexivity. Qed.

Lemma C8_witness :
  let r1 := mkTestRequest "cross-site" "cors" "POST" in
  let r2 := mkRequest "POST"
              (Header_Set (ReqHeader r1) "Cookie" "session=1")
              "/account" "amount=100" "198.51.100.7:4242" in
  site_of r1 = site_of r2 /\ mode_of r1 = mode_of r2 /\
  Method r1 = Method r2 /\ allowed r1 = allowed r2.
Proof.
  intros r1 r2.
  assert (Hs : site_of r1 = site_of r2) by reflexivity.
  assert (Hm : mode_of r1 = mode_of r2) by reflexivity.
  assert (Hme : Method r1 = Method r2) by reflexivity.
  split; [exact Hs|]. split; [exact Hm|]. split; [exact Hme|].
  exact (C8_decision_depends_on_triple r1 r2 Hs Hm Hme).
Defined.

(** C10: matching is case-sensitive: a site value that differs from
    ["none"], ["same-site"] or ["same-origin"] only in letter case falls
    through to the cross-site rule, and is allowed exactly when the mode
    is ["navigate"] and the method ["GET"]. *)
Theorem C10_case_sensitive_site (r : Request)
  (Hexact : ~ In (site_of r) permissive_sites)
  (Hcase : In (to_lower (site_of r)) ["none"; "same-site"; "same-origin"]) :
  allowed r = String.eqb (mode_of r) "navigate" && String.eqb (Method r) "GET".
Proof. exact (allowed_site_out r Hexact). Qed.

Lemma C10_witness :
  let r := mkTestRequest "SAME-ORIGIN" "cors" "POST" in
  ~ In (site_of r) permissive_sites /\
  In (to_lower (site_of r)) ["none"; "same-site"; "same-origin"] /\
  allowed r = false.
Proof.
  intros r.
  assert (Hs : ~ In (site_of r) permissive_sites)
    by (vm_compute; intros [H|[H|[H|[H|[]]]]]; discriminate).
  assert (Hc : In (to_lower (site_of r)) ["none"; "same-site"; "same-origin"])
    by (vm_compute; tauto).
  split; [exact Hs|]. split; [exact Hc|].
  rewrite (C10_case_sensitive_site r Hs Hc); reflexivity.
Defined.

(* ------------------------------------------------------------------ *)
(** ** The claims about the wrappers *)

(** C4: the handler built by [ProtectHandler] ignores the wrapped handler
    and answers with the rejection (status 403 through [WriteHeader], then
    "Invalid resource access" and a newline, shared state untouched)
    exactly when [allowed] denies; on a fresh writer the response is status
    403 with that body and nothing else, so no output of the wrapped
    handler reaches it. *)
Theorem C4_protect_rejects_iff_denied (S : Type) (r : Request)
  (w : ResponseWriter) (s : S) :
  ((forall h : Handler S, ProtectHandler S h r (w, s) = (deny w, s)) <->
   allowed r = false) /\
  status (deny freshWriter) = Some StatusForbidden /\
  RespBody (deny freshWriter) = String.append "Invalid resource access" newline /\
  RespBody (deny w) =
    String.append (RespBody w) (String.append "Invalid resource access" newline).
Proof.
  split; [|split; [reflexivity | split; [reflexivity | apply deny_body]]].
  split.
  - intros Hall. destruct (allowed r) eqn:Ha; [|reflexivity].
    exfalso. specialize (Hall (fun _ ws => ws)).
    unfold ProtectHandler in Hall; rewrite Ha in Hall; simpl in Hall.
    injection Hall as Hw. exact (deny_changes_writer w (eq_sym Hw)).
  - intros Ha h. unfold ProtectHandler; rewrite Ha; reflexivity.
Qed.

(** C5: the handler built by [ProtectHandlerLogOnly] runs the wrapped
    handler on the original request and writer, after applying
    [LogRequest] to the request once when [allowed] denies and zero times
    when it allows. *)
Theorem C5_log_only_forwards (S : Type) (h : Handler S) (rl : RequestLogger S)
  (r : Request) (w : ResponseWriter) (s : S) :
  ProtectHandlerLogOnly S h rl r (w, s) =
  h r (w, Nat.iter (if allowed r then 0 else 1) (rl r) s).
Proof. unfold ProtectHandlerLogOnly; destruct (allowed r); reflexivity. Qed.

(** C9: on a request [allowed] accepts, the handler built by
    [ProtectHandler] is the wrapped handler run on the original request,
    writer and state. *)
Theorem C9_protect_allow_passthrough (S : Type) (h : Handler S) (r : Request)
  (w : ResponseWriter) (s : S) (Hallow : allowed r = true) :
  ProtectHandler S h r (w, s) = h r (w, s).
Proof. unfold ProtectHandler; rewrite Hallow; reflexivity. Qed.

Lemma C9_witness :
  let r := mkTestRequest "cross-site" "navigate" "GET" in
  allowed r = true /\
  ProtectHandler unit userDataHandler r (freshWriter, tt) =
  userDataHandler r (freshWriter, tt).
Proof.
  intros r.
  assert (Ha : allowed r = true) by reflexivity.
  split; [exact Ha | exact (C9_protect_allow_passthrough unit userDataHandler r
                               freshWriter tt Ha)].
Defined.

(** The log-only wrapper with the test's logger and handler on the
    cross-site form submission: one logged request, status 200, the
    handler's body. *)
Example log_only_form_submission :
  let r := mkTestRequest "cross-site" "navigate" "POST" in
  let '(w, rs) := ProtectHandlerLogOnly (list Request) userDataHandler
                    testRequestLogger r (freshWriter, []) in
  status w = Some 200%Z /\ RespBody w = "User Data" /\ length rs = 1.
Proof. vm_compute; auto. Qed.

(** The enforcing wrapper on the same request: status 403 and the
    rejection message only. *)
Example protect_form_submission :
  let r := mkTestRequest "cross-site" "navigate" "POST" in
  ProtectHandler unit userDataHandler r (freshWriter, tt) =
  (mkResponseWriter (Some 403%Z) ∅
     (String.append "Invalid resource access" newline), tt).
Proof. reflexivity. Qed.



(* ------------------------------------------------------------------ *)
(** ** Further properties: headers *)

Lemma canon_site_key :
  TextProto.CanonicalMIMEHeaderKey "sec-fetch-site" = "Sec-Fetch-Site".
Proof. reflexivity. Qed.

Lemma canon_mode_key :
  TextProto.CanonicalMIMEHeaderKey "sec-fetch-mode" = "Sec-Fetch-Mode".
Proof. reflexivity. Qed.

(** [Header.Set] then [Header.Get] under the same key gives the value
    back. *)
Theorem header_set_get (h : Header) (k v : string) :
  Header_Get (Header_Set h k v) k = v.
Proof. unfold Header_Get, Header_Set. rewrite lookup_insert_eq. reflexivity. Qed.

(** [Header.Set] under one key leaves [Header.Get] under a key of another
    canonical form unchanged. *)
Theorem header_set_get_other (h : Header) (k1 k2 v : string)
  (Hne : TextProto.CanonicalMIMEHeaderKey k1 <> TextProto.CanonicalMIMEHeaderKey k2) :
  Header_Get (Header_Set h k1 v) k2 = Header_Get h k2.
Proof. unfold Header_Get, Header_Set. rewrite lookup_insert_ne by exact Hne. reflexivity. Qed.

Lemma header_set_get_other_witness :
  TextProto.CanonicalMIMEHeaderKey "sec-fetch-mode" <>
    TextProto.CanonicalMIMEHeaderKey "sec-fetch-site" /\
  Header_Get (Header_Set (Header_Set ∅ "sec-fetch-site" "none") "sec-fetch-mode" "cors")
    "sec-fetch-site" = "none".
Proof.
  assert (Hne : TextProto.CanonicalMIMEHeaderKey "sec-fetch-mode" <>
                TextProto.CanonicalMIMEHeaderKey "sec-fetch-site")
    by (vm_compute; discriminate).
  split; [exact Hne|].
  rewrite (header_set_get_other _ "sec-fetch-mode" "sec-fetch-site" "cors" Hne).
  reflexivity.
Defined.

Lemma canon_loop_cons (u : bool) (c : ascii) (s : string) :
  TextProto.canon_loop u (String c s) =
  String (canon_byte u c) (TextProto.canon_loop (Ascii.eqb (canon_byte u c) "-"%char) s).
Proof. reflexivity. Qed.

Lemma canon_byte_lower (u : bool) (c : ascii) :
  canon_byte u (lower_ascii c) = canon_byte u c.
Proof. destruct c as [[] [] [] [] [] [] [] []]; destruct u; reflexivity. Qed.

Lemma valid_byte_lower (c : ascii) :
  TextProto.validHeaderFieldByte (lower_ascii c) = TextProto.validHeaderFieldByte c.
Proof. destruct c as [[] [] [] [] [] [] [] []]; reflexivity. Qed.

Lemma canon_loop_to_lower (u : bool) (s : string) :
  TextProto.canon_loop u (to_lower s) = TextProto.canon_loop u s.
Proof.
  revert u; induction s as [|c s IH]; intros u; [reflexivity|].
  simpl to_lower; rewrite !canon_loop_cons, canon_byte_lower, IH; reflexivity.
Qed.

Lemma all_valid_to_lower (s : string) :
  TextProto.all_valid (to_lower s) = TextProto.all_valid s.
Proof.
  induction s as [|c s IH]; [reflexivity|].
  simpl; rewrite valid_byte_lower, IH; reflexivity.
Qed.

(** Header keys are matched without regard to letter case: two keys made
    of token characters that agree once lower-cased reach the same
    value. *)
Theorem header_get_case_insensitive (h : Header) (k1 k2 : string)
  (Hvalid : TextProto.all_valid k1 = true) (Hcase : to_lower k1 = to_lower k2) :
  Header_Get h k1 = Header_Get h k2.
Proof.
  assert (Hv2 : TextProto.all_valid k2 = true)
    by (rewrite <- all_valid_to_lower, <- Hcase, all_valid_to_lower; exact Hvalid).
  unfold Header_Get, TextProto.CanonicalMIMEHeaderKey.
  rewrite Hvalid, Hv2, <- (canon_loop_to_lower true k1), Hcase, canon_loop_to_lower.
  reflexivity.
Qed.

Lemma header_get_case_insensitive_witness :
  TextProto.all_valid "SEC-FETCH-SITE" = true /\
  to_lower "SEC-FETCH-SITE" = to_lower "sec-fetch-site" /\
  Header_Get (Header_Set ∅ "Sec-fetch-SITE" "cross-site") "SEC-FETCH-SITE" =
  Header_Get (Header_Set ∅ "Sec-fetch-SITE" "cross-site") "sec-fetch-site".
Proof.
  assert (Hv : TextProto.all_valid "SEC-FETCH-SITE" = true) by reflexivity.
  assert (Hc : to_lower "SEC-FETCH-SITE" = to_lower "sec-fetch-site") by reflexivity.
  split; [exact Hv|]. split; [exact Hc|].
  exact (header_get_case_insensitive _ _ _ Hv Hc).
Defined.

(** [allowed] reads only the first value of a multi-valued
    [Sec-Fetch-Site] header: the request is decided as if that value were
    the only one. *)
Theorem allowed_first_site_value (r : Request) (v : string) (vs : list string)
  (Hvals : ReqHeader r !! "Sec-Fetch-Site" = Some (v :: vs)) :
  allowed r =
  allowed (mkRequest (Method r) (<["Sec-Fetch-Site" := [v]]> (ReqHeader r))
             (URLPath r) (Body r) (RemoteAddr r)).
Proof.
  rewrite !allowed_unfold.
  unfold site_of, mode_of, Header_Get; simpl ReqHeader; simpl Method.
  rewrite canon_site_key, canon_mode_key, Hvals, lookup_insert_eq.
  rewrite lookup_insert_ne by discriminate.
  reflexivity.
Qed.

Lemma allowed_first_site_value_witness :
  let r := mkRequest "POST" {[ "Sec-Fetch-Site" := ["cross-site"; "same-origin"] ]}
             "/" "" "192.0.2.1:1234" in
  ReqHeader r !! "Sec-Fetch-Site" = Some ("cross-site" :: ["same-origin"]) /\
  allowed r = false /\
  allowed r = allowed (mkRequest (Method r)
                         (<["Sec-Fetch-Site" := ["cross-site"]]> (ReqHeader r))
                         (URLPath r) (Body r) (RemoteAddr r)).
Proof.
  intros r.
  assert (H : ReqHeader r !! "Sec-Fetch-Site" = Some ("cross-site" :: ["same-origin"]))
    by reflexivity.
  split; [exact H|]. split; [reflexivity|].
  exact (allowed_first_site_value r _ _ H).
Defined.

(* ------------------------------------------------------------------ *)
(** ** Further properties: the wrappers and the response writer *)

(** Wrapping a handler twice with [ProtectHandler] behaves as wrapping it
    once. *)
Theorem protect_handler_idempotent (S : Type) (h : Handler S) (r : Request)
  (w : ResponseWriter) (s : S) :
  ProtectHandler S (ProtectHandler S h) r (w, s) = ProtectHandler S h r (w, s).
Proof. unfold ProtectHandler; destruct (allowed r); reflexivity. Qed.

(** A log-only wrapper placed inside the enforcing one is inert: its
    logger is never called, since the requests it would log never get
    past [ProtectHandler]. *)
Theorem protect_around_log_only (S : Type) (h : Handler S) (rl : RequestLogger S)
  (r : Request) (w : ResponseWriter) (s : S) :
  ProtectHandler S (ProtectHandlerLogOnly S h rl) r (w, s) =
  ProtectHandler S h r (w, s).
Proof. unfold ProtectHandler, ProtectHandlerLogOnly; destruct (allowed r); reflexivity. Qed.

(** A log-only wrapper placed outside the enforcing one logs a denied
    request once and then the rejection is written; allowed requests
    reach the wrapped handler unlogged. *)
Theorem log_only_around_protect (S : Type) (h : Handler S) (rl : RequestLogger S)
  (r : Request) (w : ResponseWriter) (s : S) :
  ProtectHandlerLogOnly S (ProtectHandler S h) rl r (w, s) =
  if allowed r then h r (w, s) else (deny w, rl r s).
Proof. unfold ProtectHandler, ProtectHandlerLogOnly; destruct (allowed r); reflexivity. Qed.

(** When the status was already written before [ProtectHandler] denies,
    its [WriteHeader(http.StatusForbidden)] is superfluous: the earlier
    status stays, the response headers are untouched, and the message is
    appended to the body. *)
Theorem deny_after_status_written (w : ResponseWriter) (c : Z)
  (Hwritten : status w = Some c) :
  status (deny w) = Some c /\ RespHeader (deny w) = RespHeader w /\
  RespBody (deny w) =
    String.append (RespBody w) (String.append "Invalid resource access" newline).
Proof.
  destruct w as [st hd b]; simpl in Hwritten; subst st.
  split; [reflexivity | split; [reflexivity | apply deny_body]].
Qed.

Lemma deny_after_status_written_witness :
  let w := Write freshWriter "partial" in
  status w = Some 200%Z /\ status (deny w) = Some 200%Z /\
  RespHeader (deny w) = RespHeader w /\
  RespBody (deny w) =
    String.append (RespBody w) (String.append "Invalid resource access" newline).
Proof.
  intros w.
  assert (H : status w = Some 200%Z) by reflexivity.
  split; [exact H | exact (deny_after_status_written w 200 H)].
Defined.

(* ------------------------------------------------------------------ *)
(** ** Further properties: the test suite *)

(** [TestProtectHandler]'s leak check can never fail: around the test's
    handler, every request gets either status 200 with the handler's
    data (when allowed) or status 403 with only the rejection message,
    which does not contain that data (when denied). *)
Theorem protect_user_data_no_leak (S : Type) (r : Request) (s : S) :
  let w := fst (ProtectHandler S userDataHandler r (freshWriter, s)) in
  (allowed r = true /\ status w = Some 200%Z /\ RespBody w = "User Data") \/
  (allowed r = false /\ status w = Some StatusForbidden /\
   RespBody w = String.append "Invalid resource access" newline /\
   contains (RespBody w) "User Data" = false).
Proof.
  unfold ProtectHandler; destruct (allowed r); simpl.
  - left; auto.
  - right; repeat split; reflexivity.
Qed.


(** Against this [allowed], [TestProtectHandler] and
    [TestProtectHandlerLogOnly] each fail on exactly three rows of
    [checkTests]; the other eight pass. *)
Theorem check_tests_failing_rows :
  failingRows protectRowPasses =
    ["cors bug missing mode"; "cross origin nested navigate";
     "cross origin head navigate"] /\
  failingRows logOnlyRowPasses =
    ["cors bug missing mode"; "cross origin nested navigate";
     "cross origin head navigate"].
Proof. split; vm_compute; reflexivity. Qed.
